(** * solarMonitor: the power sensor task (sensor.cpp)

    A shallow embedding of [PSensor] -- the periodic sampling step [run], the
    fixed-point conversions [current] and [voltage], and the read accessor
    [lastReading] -- together with the properties of the specification that
    concern them.

    Integers are modelled as [Z] with the C++ conversions written out:
    unsigned arithmetic wraps, a narrowing conversion to a signed type keeps
    the low bits (the behaviour avr-gcc defines), and signed overflow or a
    division by zero has no defined result, which the model reports as
    [None]. *)

From Stdlib Require Import ZArith Lia Bool List.

Local Open Scope Z_scope.

(** ** Fixed-width integers *)

Module CInt.

Definition modulus (bits : Z) : Z := 2 ^ bits.

(** Conversion to an unsigned type of [bits] bits. *)
Definition to_uint (bits z : Z) : Z := z mod modulus bits.

(** Conversion to a signed type of [bits] bits: the value is reduced modulo
    [2^bits] and read back in two's complement. *)
Definition to_int (bits z : Z) : Z :=
  (z + modulus (bits - 1)) mod modulus bits - modulus (bits - 1).

(** Does [z] lie in the range of the signed type of [bits] bits? *)
Definition fits_int (bits z : Z) : bool :=
  (- modulus (bits - 1) <=? z) && (z <? modulus (bits - 1)).

Definition uint8 := to_uint 8.
Definition uint16 := to_uint 16.
Definition uint32 := to_uint 32.
Definition int16 := to_int 16.
Definition int32 := to_int 32.

End CInt.

(** ** The platform

    [millis], [readVcc] and [analogRead] are provided by the board support
    code.  The platform is an oracle: it fixes the answer of every future call
    and counts the calls made so far, so that two reads of one pin may differ
    and an acquisition leaves a trace. *)

Record Platform : Type := mkPlatform {
  clock : Z;                    (* what millis() returns *)
  vcc_supply : nat -> Z;        (* answer of the k-th readVcc() *)
  adc_input : nat -> Z -> Z;    (* answer of the k-th analogRead(), per pin *)
  vcc_reads : nat;              (* readVcc() calls made so far *)
  adc_reads : nat               (* analogRead() calls made so far *)
}.

Definition tick_vcc (w : Platform) : Platform :=
  mkPlatform (clock w) (vcc_supply w) (adc_input w) (S (vcc_reads w)) (adc_reads w).

Definition tick_adc (w : Platform) : Platform :=
  mkPlatform (clock w) (vcc_supply w) (adc_input w) (vcc_reads w) (S (adc_reads w)).

(** ** The timed task *)

Module TimedTask.

(** Modelled from the spec: the TimedTask base class is not among the
    sources.  Sections 3 and 4.1 give it one member, the timestamp at which
    the task is next due. *)
Record t : Type := mk {
  nextRunTime : Z
}.

(** Modelled from the spec: the constructor TimedTask(when), absent from the
    sources, makes the task due at [when]. *)
Definition init (when : Z) : t := mk (CInt.uint32 when).

(** Modelled from the spec: incRunTime is absent from the sources, which call
    it with the interval alone.  The task reschedules itself relative to its
    own last run, not to the clock (section 2); its due time moves only by
    this reschedule-by-interval (section 3); and a run entered 5 ms late
    leaves the next due time where a run entered on time leaves it (section
    8).  The interval is added to the due time, on the wrapping unsigned
    millisecond counter. *)
Definition incRunTime (intervalMillis : Z) (task : t) : t :=
  mk (CInt.uint32 (nextRunTime task + intervalMillis)).

End TimedTask.

(** ** The sensor reading record *)

Module sensor_data_struct.

(** Modelled from the spec: the struct is declared in sensor.h; its fields are
    the seven that [lastReading] assigns (section 3). *)
Record t : Type := mk {
  id : Z;
  ts : Z;
  pinValI : Z;
  pinValV : Z;
  mV : Z;
  mA : Z;
  mW : Z
}.

Definition set_id (v : Z) (d : t) : t :=
  mk v (ts d) (pinValI d) (pinValV d) (mV d) (mA d) (mW d).
Definition set_ts (v : Z) (d : t) : t :=
  mk (id d) v (pinValI d) (pinValV d) (mV d) (mA d) (mW d).
Definition set_pinValI (v : Z) (d : t) : t :=
  mk (id d) (ts d) v (pinValV d) (mV d) (mA d) (mW d).
Definition set_pinValV (v : Z) (d : t) : t :=
  mk (id d) (ts d) (pinValI d) v (mV d) (mA d) (mW d).
Definition set_mV (v : Z) (d : t) : t :=
  mk (id d) (ts d) (pinValI d) (pinValV d) v (mA d) (mW d).
Definition set_mA (v : Z) (d : t) : t :=
  mk (id d) (ts d) (pinValI d) (pinValV d) (mV d) v (mW d).
Definition set_mW (v : Z) (d : t) : t :=
  mk (id d) (ts d) (pinValI d) (pinValV d) (mV d) (mA d) v.

End sensor_data_struct.

(** ** The power sensor *)

Module PSensor.

(** Modelled from the spec: sensor.h, which declares the class, is not among
    the sources.  The members are those of the constructor's initialiser
    list, in its order, after the TimedTask base, and [_Vcc], which [run]
    assigns.  A member holds the value assigned to it; the platform contract
    (section 6) keeps the samples within 0..1023. *)
Record t : Type := mk {
  task : TimedTask.t;
  _pinV : Z;
  _pinI : Z;
  _maxV : Z;
  _mV_A : Z;
  _r1 : Z;
  _r2 : Z;
  _readRate : Z;
  _id : Z;
  _calI : Z;
  _calV : Z;
  _VpinVal : Z;
  _IpinVal : Z;
  _ts : Z;
  _Vcc : Z
}.

Definition set_task (v : TimedTask.t) (s : t) : t :=
  mk v (_pinV s) (_pinI s) (_maxV s) (_mV_A s) (_r1 s) (_r2 s) (_readRate s)
     (_id s) (_calI s) (_calV s) (_VpinVal s) (_IpinVal s) (_ts s) (_Vcc s).
Definition set_calV (v : Z) (s : t) : t :=
  mk (task s) (_pinV s) (_pinI s) (_maxV s) (_mV_A s) (_r1 s) (_r2 s) (_readRate s)
     (_id s) (_calI s) v (_VpinVal s) (_IpinVal s) (_ts s) (_Vcc s).
Definition set_VpinVal (v : Z) (s : t) : t :=
  mk (task s) (_pinV s) (_pinI s) (_maxV s) (_mV_A s) (_r1 s) (_r2 s) (_readRate s)
     (_id s) (_calI s) (_calV s) v (_IpinVal s) (_ts s) (_Vcc s).
Definition set_IpinVal (v : Z) (s : t) : t :=
  mk (task s) (_pinV s) (_pinI s) (_maxV s) (_mV_A s) (_r1 s) (_r2 s) (_readRate s)
     (_id s) (_calI s) (_calV s) (_VpinVal s) v (_ts s) (_Vcc s).
Definition set_ts (v : Z) (s : t) : t :=
  mk (task s) (_pinV s) (_pinI s) (_maxV s) (_mV_A s) (_r1 s) (_r2 s) (_readRate s)
     (_id s) (_calI s) (_calV s) (_VpinVal s) (_IpinVal s) v (_Vcc s).
Definition set_Vcc (v : Z) (s : t) : t :=
  mk (task s) (_pinV s) (_pinI s) (_maxV s) (_mV_A s) (_r1 s) (_r2 s) (_readRate s)
     (_id s) (_calI s) (_calV s) (_VpinVal s) (_IpinVal s) (_ts s) v.

End PSensor.

(** ** Methods run on a machine: the object and the platform under it *)

Record Machine : Type := mkMachine {
  self : PSensor.t;
  hw : Platform
}.

(** A method either returns a value and a new machine, or has no defined
    behaviour. *)
Definition M (A : Type) : Type := Machine -> option (A * Machine).

Definition ret {A : Type} (a : A) : M A := fun m => Some (a, m).

Definition bind {A B : Type} (c : M A) (k : A -> M B) : M B :=
  fun m => match c m with
           | Some (a, m') => k a m'
           | None => None
           end.

Definition undefined {A : Type} : M A := fun _ => None.

Declare Scope method_scope.
Delimit Scope method_scope with method.
Notation "x <- c ;; k" := (bind c (fun x => k))
  (at level 61, c at next level, right associativity) : method_scope.
Notation "c ;; k" := (bind c (fun _ => k))
  (at level 61, right associativity) : method_scope.
Local Open Scope method_scope.

Definition this : M PSensor.t := fun m => Some (self m, m).

Definition assign (f : PSensor.t -> PSensor.t) : M unit :=
  fun m => Some (tt, mkMachine (f (self m)) (hw m)).

Definition readVcc : M Z :=
  fun m => Some (vcc_supply (hw m) (vcc_reads (hw m)),
                 mkMachine (self m) (tick_vcc (hw m))).

Definition analogRead (pin : Z) : M Z :=
  fun m => Some (adc_input (hw m) (adc_reads (hw m)) pin,
                 mkMachine (self m) (tick_adc (hw m))).

(** The result of a signed operation of [bits] bits: defined only when the
    mathematical result is representable. *)
Definition signed (bits z : Z) : M Z :=
  if CInt.fits_int bits z then ret z else undefined.

(** Signed division truncates toward zero and is undefined for a zero
    divisor. *)
Definition sdiv (bits n d : Z) : M Z :=
  if d =? 0 then undefined else signed bits (Z.quot n d).

(** ** The methods of PSensor *)

(** Width of [int] on the target.  The one [int] operation of the file,
    [128 * _mV_A], is at most 32640 for an 8-bit sensitivity and so is
    representable in the 16-bit [int] of the AVR boards as well as in a
    32-bit one. *)
Definition INT_BITS : Z := 16.

(** PSensor::PSensor.  The arguments are converted to the parameter types;
    the base class is initialised with millis(); [_VpinVal], [_IpinVal] and
    [_ts] start at 0.  [_Vcc] has no initialiser: it holds whatever the
    storage held, here [garbage]. *)
Definition construct (pinV pinI maxV mV_A r1 r2 readRate id calI calV : Z)
    (garbage : Z) (w : Platform) : Machine :=
  mkMachine
    (PSensor.mk (TimedTask.init (clock w))
       (CInt.uint8 pinV) (CInt.uint8 pinI) (CInt.uint8 maxV) (CInt.uint8 mV_A)
       (CInt.uint16 r1) (CInt.uint16 r2) (CInt.uint32 readRate) id
       (CInt.int16 calI) (CInt.int16 calV) 0 0 0 garbage)
    w.

(** PSensor::run. *)
Definition run (now : Z) : M unit :=
  assign (PSensor.set_ts now) ;;
  vcc <- readVcc ;;
  assign (PSensor.set_Vcc vcc) ;;
  s <- this ;;
  v <- analogRead (PSensor._pinV s) ;;
  assign (PSensor.set_VpinVal v) ;;
  s <- this ;;
  i <- analogRead (PSensor._pinI s) ;;
  assign (PSensor.set_IpinVal i) ;;
  s <- this ;;
  assign (fun s' => PSensor.set_task (TimedTask.incRunTime (PSensor._readRate s) (PSensor.task s')) s').

(** The run steps a scheduler makes one after the other, at the given
    times: [run] called once per element, in order. *)
Fixpoint runs (nows : list Z) : M unit :=
  match nows with
  | nil => ret tt
  | now :: rest => run now ;; runs rest
  end.

(** PSensor::current:
    [(int16_t)((((int32_t)_IpinVal - 512 + _calI) * 625000) / (int32_t)(128 * _mV_A))]. *)
Definition current : M Z :=
  s <- this ;;
  a <- signed 32 (CInt.int32 (PSensor._IpinVal s) - 512) ;;
  zeroComp <- signed 32 (a + PSensor._calI s) ;;
  num <- signed 32 (zeroComp * 625000) ;;
  den <- signed INT_BITS (128 * PSensor._mV_A s) ;;
  q <- sdiv 32 num (CInt.int32 den) ;;
  ret (CInt.int16 q).

(** PSensor::voltage: the local [Vcc] is read from the platform and not used;
    the product and the quotient are 32-bit unsigned, the result is converted
    to the 16-bit signed return type. *)
Definition voltage : M Z :=
  Vcc <- readVcc ;;
  s <- this ;;
  ret (CInt.int16
         (CInt.uint32 (CInt.uint32 (CInt.uint32 (PSensor._VpinVal s) * PSensor._maxV s) * 125)
          / 128)).

(** Modelled from the spec: power is declared outside sensor.cpp; section 4.2
    gives power_mW = mV * mA / 1000 on a wide intermediate. *)
Definition power (mV mA : Z) : Z := Z.quot (mV * mA) 1000.

(** PSensor::lastReading: fills the record behind [data] and returns the
    status.  The test of [_ts] and the reset of [_ts] are commented out in
    the source, so neither is part of the method. *)
Definition lastReading (data : sensor_data_struct.t) : M (Z * sensor_data_struct.t) :=
  s <- this ;;
  let data := sensor_data_struct.set_id (PSensor._id s) data in
  let data := sensor_data_struct.set_ts (PSensor._ts s) data in
  let data := sensor_data_struct.set_pinValI (PSensor._IpinVal s) data in
  let data := sensor_data_struct.set_pinValV (PSensor._VpinVal s) data in
  v <- voltage ;;
  let data := sensor_data_struct.set_mV v data in
  i <- current ;;
  let data := sensor_data_struct.set_mA i data in
  let data := sensor_data_struct.set_mW
                (power (sensor_data_struct.mV data) (sensor_data_struct.mA data)) data in
  ret (0, data).

(** The status values of [lastReading], from its documentation: 0 if there
    was data available to return, 1 otherwise. *)
Definition STATUS_OK : Z := 0.
Definition STATUS_NO_DATA : Z := 1.

(** ** The exact fixed-point quotients *)

(** [(r - 512 + c) * 625000 / (128 * sensitivity)], truncated toward zero. *)
Definition current_quotient (r c sensitivity : Z) : Z :=
  Z.quot ((r - 512 + c) * 625000) (128 * sensitivity).

(** [r * maxV * 125 / 128]. *)
Definition voltage_quotient (r maxV : Z) : Z := r * maxV * 125 / 128.

(** ** The methods in closed form

    What each method leaves behind, written as a plain function of the sensor
    and the platform; the lemmas of the section on the methods relate these to
    the method bodies above. *)

(** The value [voltage] returns, as an expression of the two members it
    reads. *)
Definition voltage_value (s : PSensor.t) : Z :=
  CInt.int16
    (CInt.uint32 (CInt.uint32 (CInt.uint32 (PSensor._VpinVal s) * PSensor._maxV s) * 125)
     / 128).

(** The record [lastReading] fills, given the converted current. *)
Definition filled (s : PSensor.t) (i : Z) : sensor_data_struct.t :=
  sensor_data_struct.mk (PSensor._id s) (PSensor._ts s) (PSensor._IpinVal s)
    (PSensor._VpinVal s) (voltage_value s) i (power (voltage_value s) i).

(** The machine after [run]: the four sampled members are assigned and the
    task is rescheduled; the platform has served one supply-voltage read
    and two channel reads. *)
Definition sampled (now : Z) (s : PSensor.t) (w : Platform) : PSensor.t :=
  PSensor.mk (TimedTask.incRunTime (PSensor._readRate s) (PSensor.task s))
    (PSensor._pinV s) (PSensor._pinI s) (PSensor._maxV s) (PSensor._mV_A s)
    (PSensor._r1 s) (PSensor._r2 s) (PSensor._readRate s) (PSensor._id s)
    (PSensor._calI s) (PSensor._calV s)
    (adc_input w (adc_reads w) (PSensor._pinV s))
    (adc_input w (S (adc_reads w)) (PSensor._pinI s))
    now (vcc_supply w (vcc_reads w)).

(** The next due time of the sensor's task. *)
Definition nextDue (m : Machine) : Z := TimedTask.nextRunTime (PSensor.task (self m)).

(** ** Sample machines *)

Definition bench : Platform :=
  mkPlatform 1000 (fun _ => 5000) (fun _ pin => if pin =? 0 then 700 else 522) 0 0.

(** A sensor on pins 0 and 1, 30 V divider, 100 mV/A, read every 500 ms. *)
Definition fresh : Machine :=
  construct 0 1 30 100 27000 4700 500 65 0 0 0 bench.

Definition blank : sensor_data_struct.t := sensor_data_struct.mk 0 0 0 0 0 0 0.

(** A sensor holding the given samples and configuration. *)
Definition holding (rawV rawI maxV mV_A calI calV : Z) : PSensor.t :=
  PSensor.mk (TimedTask.init 0) 0 1 maxV mV_A 27000 4700 500 65 calI calV rawV rawI 1 5000.

(** The sample sensor after its first run, at time 1000, and after a read
    that follows it. *)
Definition after_first_run : Machine :=
  mkMachine (sampled 1000 (self fresh) (hw fresh))
            (tick_adc (tick_adc (tick_vcc (hw fresh)))).

Definition after_first_read : Machine :=
  mkMachine (self after_first_run) (tick_vcc (hw after_first_run)).

(** A sensor constructed with a sensitivity of 256 mV/A, which the 8-bit
    parameter turns into 0. *)
Definition insensitive : Machine :=
  construct 0 1 30 256 27000 4700 500 65 0 0 0 bench.

(** ** Well-formed sensors and the life of a sensor *)

(** The ranges the parameter types of the constructor give the configuration
    and the calibration: [uint8_t] pins, maximum voltage and sensitivity,
    [uint16_t] resistors, [uint32_t] read rate, [int16_t] offsets. *)
Definition configured (s : PSensor.t) : Prop :=
  0 <= PSensor._pinV s < 256 /\ 0 <= PSensor._pinI s < 256 /\
  0 <= PSensor._maxV s < 256 /\ 0 <= PSensor._mV_A s < 256 /\
  0 <= PSensor._r1 s < 65536 /\ 0 <= PSensor._r2 s < 65536 /\
  0 <= PSensor._readRate s < 4294967296 /\
  -32768 <= PSensor._calI s < 32768 /\ -32768 <= PSensor._calV s < 32768.

(** Both stored samples lie in the range of the 10-bit converter. *)
Definition samples_in_range (s : PSensor.t) : Prop :=
  0 <= PSensor._VpinVal s <= 1023 /\ 0 <= PSensor._IpinVal s <= 1023.

Definition wellformed (s : PSensor.t) : Prop := configured s /\ samples_in_range s.

(** The contract of analogRead: every answer is a 10-bit value. *)
Definition adc_contract (w : Platform) : Prop :=
  forall (k : nat) (pin : Z), 0 <= adc_input w k pin <= 1023.

(** Two sensors with the same configuration and calibration: the ten members
    the constructor takes from its arguments. *)
Definition same_configuration (s s' : PSensor.t) : Prop :=
  PSensor._pinV s' = PSensor._pinV s /\ PSensor._pinI s' = PSensor._pinI s /\
  PSensor._maxV s' = PSensor._maxV s /\ PSensor._mV_A s' = PSensor._mV_A s /\
  PSensor._r1 s' = PSensor._r1 s /\ PSensor._r2 s' = PSensor._r2 s /\
  PSensor._readRate s' = PSensor._readRate s /\ PSensor._id s' = PSensor._id s /\
  PSensor._calI s' = PSensor._calI s /\ PSensor._calV s' = PSensor._calV s.

(** The machines a sensor passes through: from [m0], any sequence of calls of
    its two public methods, [run] and [lastReading], that return. *)
Inductive evolves (m0 : Machine) : Machine -> Prop :=
| evolves_start : evolves m0 m0
| evolves_run (m m' : Machine) (now : Z) :
    evolves m0 m -> run now m = Some (tt, m') -> evolves m0 m'
| evolves_lastReading (m m' : Machine) (data : sensor_data_struct.t)
    (r : Z * sensor_data_struct.t) :
    evolves m0 m -> lastReading data m = Some (r, m') -> evolves m0 m'.

(** ** Arithmetic of the conversions *)

Section Conversions.

Lemma uint32_id (z : Z) : 0 <= z < 4294967296 -> CInt.uint32 z = z.
Proof.
  intros Hz. unfold CInt.uint32, CInt.to_uint.
  change (CInt.modulus 32) with 4294967296.
  apply Z.mod_small; exact Hz.
Qed.

Lemma int16_id (z : Z) : -32768 <= z < 32768 -> CInt.int16 z = z.
Proof.
  intros Hz. unfold CInt.int16, CInt.to_int.
  change (CInt.modulus (16 - 1)) with 32768.
  change (CInt.modulus 16) with 65536.
  rewrite Z.mod_small; lia.
Qed.

Lemma int16_range (z : Z) : -32768 <= CInt.int16 z < 32768.
Proof.
  unfold CInt.int16, CInt.to_int.
  change (CInt.modulus (16 - 1)) with 32768.
  change (CInt.modulus 16) with 65536.
  pose proof (Z.mod_pos_bound (z + 32768) 65536 ltac:(lia)). lia.
Qed.

Lemma int32_id (z : Z) : -2147483648 <= z < 2147483648 -> CInt.int32 z = z.
Proof.
  intros Hz. unfold CInt.int32, CInt.to_int.
  change (CInt.modulus (32 - 1)) with 2147483648.
  change (CInt.modulus 32) with 4294967296.
  rewrite Z.mod_small; lia.
Qed.

Lemma fits_int_32 (z : Z) :
  CInt.fits_int 32 z = true <-> -2147483648 <= z < 2147483648.
Proof.
  unfold CInt.fits_int. change (CInt.modulus (32 - 1)) with 2147483648.
  rewrite andb_true_iff, Z.leb_le, Z.ltb_lt. tauto.
Qed.

Lemma fits_int_16 (z : Z) :
  CInt.fits_int INT_BITS z = true <-> -32768 <= z < 32768.
Proof.
  unfold CInt.fits_int, INT_BITS. change (CInt.modulus (16 - 1)) with 32768.
  rewrite andb_true_iff, Z.leb_le, Z.ltb_lt. tauto.
Qed.

Lemma signed_32_defined (z : Z) (m : Machine) :
  -2147483648 <= z < 2147483648 -> signed 32 z m = Some (z, m).
Proof.
  intros Hz. unfold signed.
  destruct (CInt.fits_int 32 z) eqn:E; [reflexivity|].
  apply fits_int_32 in Hz. congruence.
Qed.

Lemma signed_int_defined (z : Z) (m : Machine) :
  -32768 <= z < 32768 -> signed INT_BITS z m = Some (z, m).
Proof.
  intros Hz. unfold signed.
  destruct (CInt.fits_int INT_BITS z) eqn:E; [reflexivity|].
  apply fits_int_16 in Hz. congruence.
Qed.

Lemma sdiv_32_defined (n d : Z) (m : Machine) :
  d <> 0 -> -2147483648 <= Z.quot n d < 2147483648 ->
  sdiv 32 n d m = Some (Z.quot n d, m).
Proof.
  intros Hd Hq. unfold sdiv.
  destruct (Z.eqb_spec d 0); [contradiction|].
  apply signed_32_defined; exact Hq.
Qed.

End Conversions.

(** ** What the methods compute *)

Section Methods.

Lemma voltage_run (s : PSensor.t) (w : Platform) :
  voltage (mkMachine s w) = Some (voltage_value s, mkMachine s (tick_vcc w)).
Proof. reflexivity. Qed.

Lemma voltage_product (r maxV : Z) :
  0 <= r <= 1023 -> 0 <= maxV <= 255 ->
  CInt.uint32 (CInt.uint32 (CInt.uint32 r * maxV) * 125) / 128 = voltage_quotient r maxV.
Proof.
  intros Hr Hm. unfold voltage_quotient.
  rewrite (uint32_id r) by lia.
  rewrite (uint32_id (r * maxV)) by nia.
  rewrite (uint32_id (r * maxV * 125)) by nia.
  reflexivity.
Qed.

Lemma voltage_quotient_bounds (r maxV : Z) :
  0 <= r <= 1023 -> 0 <= maxV <= 255 -> 0 <= voltage_quotient r maxV <= 254750.
Proof.
  intros Hr Hm. unfold voltage_quotient. split.
  - apply Z.div_pos; nia.
  - enough (r * maxV * 125 / 128 < 254751) by lia.
    apply Z.div_lt_upper_bound; nia.
Qed.

Lemma voltage_of_zero (s : PSensor.t) :
  PSensor._VpinVal s = 0 -> voltage_value s = 0.
Proof. intros E. unfold voltage_value. rewrite E. reflexivity. Qed.

(** Truncated division by a positive divisor stays within the dividend. *)
Lemma quot_within (n d : Z) : 1 <= d -> Z.abs (Z.quot n d) <= Z.abs n.
Proof.
  intros Hd. rewrite <- Z.quot_abs by lia.
  rewrite (Z.abs_eq d) by lia.
  apply Z.quot_le_upper_bound; [lia|].
  generalize (Z.abs_nonneg n). generalize (Z.abs n). intros a Ha. nia.
Qed.

(** A dividend whose quotient fits 16 bits fits 32 bits, for the divisors
    [128 * sensitivity] of an 8-bit sensitivity. *)
Lemma dividend_fits (n d : Z) :
  1 <= d <= 32640 -> -32768 <= Z.quot n d <= 32767 ->
  -2147483648 <= n < 2147483648.
Proof.
  intros Hd Hq.
  pose proof (Z.quot_rem' n d) as E.
  destruct (Z_le_gt_dec 0 n) as [Hn|Hn].
  - pose proof (Z.rem_bound_pos n d Hn ltac:(lia)). nia.
  - pose proof (Z.rem_bound_pos_neg n d ltac:(lia) ltac:(lia)). nia.
Qed.

(** [current] on a machine whose arithmetic is defined. *)
Lemma current_run (s : PSensor.t) (w : Platform) :
  -2147483648 <= PSensor._IpinVal s < 2147483648 ->
  -2147483648 <= PSensor._IpinVal s - 512 < 2147483648 ->
  -2147483648 <= PSensor._IpinVal s - 512 + PSensor._calI s < 2147483648 ->
  -2147483648 <= (PSensor._IpinVal s - 512 + PSensor._calI s) * 625000 < 2147483648 ->
  1 <= PSensor._mV_A s <= 255 ->
  current (mkMachine s w) =
    Some (CInt.int16 (current_quotient (PSensor._IpinVal s) (PSensor._calI s) (PSensor._mV_A s)),
          mkMachine s w).
Proof.
  intros H0 H1 H2 H3 H4.
  unfold current, bind, this. cbn [self].
  rewrite (int32_id _ H0).
  rewrite (signed_32_defined _ _ H1).
  rewrite (signed_32_defined _ _ H2).
  rewrite (signed_32_defined _ _ H3).
  rewrite signed_int_defined by lia.
  rewrite int32_id by lia.
  rewrite sdiv_32_defined.
  - reflexivity.
  - lia.
  - pose proof (quot_within ((PSensor._IpinVal s - 512 + PSensor._calI s) * 625000)
                  (128 * PSensor._mV_A s) ltac:(lia)). lia.
Qed.

(** [current] reads the sensor only and leaves the machine as it was. *)
Lemma current_frame (s : PSensor.t) (w w' : Platform) :
  current (mkMachine s w') =
    option_map (fun r => (fst r, mkMachine s w')) (current (mkMachine s w)).
Proof.
  unfold current, bind, this, sdiv, signed, ret, undefined. cbn [self].
  repeat match goal with
         | |- context [if ?b then _ else _] => destruct b
         end; reflexivity.
Qed.

Lemma lastReading_run (data : sensor_data_struct.t) (s : PSensor.t) (w : Platform) :
  lastReading data (mkMachine s w) =
    option_map (fun r => ((STATUS_OK, filled s (fst r)), mkMachine s (tick_vcc w)))
               (current (mkMachine s w)).
Proof.
  unfold lastReading, bind, this. cbn [self].
  rewrite voltage_run.
  rewrite (current_frame s w (tick_vcc w)).
  destruct (current (mkMachine s w)) as [[i m0]|]; reflexivity.
Qed.

Lemma run_run (now : Z) (s : PSensor.t) (w : Platform) :
  run now (mkMachine s w) =
    Some (tt, mkMachine (sampled now s w) (tick_adc (tick_adc (tick_vcc w)))).
Proof. reflexivity. Qed.

End Methods.

(** ** The status of lastReading *)

(** Whenever [lastReading] returns, its status is 0: the only [return] left in
    the body. *)
Lemma lastReading_status (data : sensor_data_struct.t) (m m' : Machine)
    (st : Z) (d : sensor_data_struct.t) :
  lastReading data m = Some ((st, d), m') -> st = STATUS_OK.
Proof.
  destruct m as [s w]. rewrite lastReading_run.
  destruct (current (mkMachine s w)) as [[i m0]|]; cbn; [|discriminate].
  intros E. injection E as E _ _. symmetry. exact E.
Qed.

(** C1.  The claim: on a sensor on which run was never invoked (the timestamp
    still 0) lastReading reports the no-data status 1.  The code does not: on
    the freshly constructed sensor [fresh], whose timestamp is 0, lastReading
    returns status 0, the success status, and fills the record from the
    initial samples. *)
Theorem lastReading_before_run_reports_success :
  PSensor._ts (self fresh) = 0 /\
  option_map (fun r => fst (fst r)) (lastReading blank fresh) = Some STATUS_OK /\
  option_map (fun r => fst (fst r)) (lastReading blank fresh) <> Some STATUS_NO_DATA.
Proof.
  split; [reflexivity|]. split; [reflexivity|].
  vm_compute. discriminate.
Qed.

(** ** current *)

Example current_at_rest (w : Platform) :
  option_map fst (current (mkMachine (holding 0 512 30 100 0 0) w)) = Some 0.
Proof. reflexivity. Qed.

Example current_ten_steps (w : Platform) :
  option_map fst (current (mkMachine (holding 0 522 30 100 0 0) w)) = Some 488.
Proof. reflexivity. Qed.

(** [current] when the exact quotient is representable in the return type. *)
Lemma current_representable (s : PSensor.t) (w : Platform) :
  0 <= PSensor._IpinVal s <= 1023 ->
  -32768 <= PSensor._calI s <= 32767 ->
  1 <= PSensor._mV_A s <= 255 ->
  -32768 <= current_quotient (PSensor._IpinVal s) (PSensor._calI s) (PSensor._mV_A s) <= 32767 ->
  current (mkMachine s w) =
    Some (current_quotient (PSensor._IpinVal s) (PSensor._calI s) (PSensor._mV_A s),
          mkMachine s w).
Proof.
  intros Hr Hc Hs Hq.
  pose proof (dividend_fits _ (128 * PSensor._mV_A s) ltac:(lia) Hq) as Hn.
  rewrite current_run by lia.
  rewrite int16_id by lia. reflexivity.
Qed.

(** C2, as amended.  For a raw current sample r in 0..1023, a calibration
    offset c of 16 signed bits and a sensitivity in 1..255 mV/A, whenever the
    exact quotient (r - 512 + c) * 625000 / (128 * sensitivity), truncated
    toward zero, is representable in the 16-bit signed return type, current()
    returns exactly that quotient and leaves the sensor and the platform
    untouched; it returns 0 mA for r = 512 and 488 mA for r = 522 at
    100 mV/A without offset. *)
Theorem current_exact_when_representable (s : PSensor.t) (w : Platform) :
  0 <= PSensor._IpinVal s <= 1023 ->
  -32768 <= PSensor._calI s <= 32767 ->
  1 <= PSensor._mV_A s <= 255 ->
  -32768 <= current_quotient (PSensor._IpinVal s) (PSensor._calI s) (PSensor._mV_A s) <= 32767 ->
  current (mkMachine s w) =
    Some (current_quotient (PSensor._IpinVal s) (PSensor._calI s) (PSensor._mV_A s),
          mkMachine s w)
  /\ (PSensor._mV_A s = 100 -> PSensor._calI s = 0 -> PSensor._IpinVal s = 512 ->
      option_map fst (current (mkMachine s w)) = Some 0)
  /\ (PSensor._mV_A s = 100 -> PSensor._calI s = 0 -> PSensor._IpinVal s = 522 ->
      option_map fst (current (mkMachine s w)) = Some 488).
Proof.
  intros Hr Hc Hs Hq.
  pose proof (current_representable s w Hr Hc Hs Hq) as E.
  split; [exact E|].
  split; intros E1 E2 E3; rewrite E, E1, E2, E3; reflexivity.
Qed.

Lemma current_exact_when_representable_witness :
  0 <= 522 <= 1023 /\ -32768 <= 0 <= 32767 /\ 1 <= 100 <= 255 /\
  -32768 <= current_quotient 522 0 100 <= 32767 /\
  current (mkMachine (holding 0 522 30 100 0 0) bench) =
    Some (488, mkMachine (holding 0 522 30 100 0 0) bench).
Proof.
  assert (H1 : 0 <= 522 <= 1023) by lia.
  assert (H2 : -32768 <= 0 <= 32767) by lia.
  assert (H3 : 1 <= 100 <= 255) by lia.
  assert (H4 : -32768 <= current_quotient 522 0 100 <= 32767)
    by (vm_compute; split; discriminate).
  refine (conj H1 (conj H2 (conj H3 (conj H4 _)))).
  exact (proj1 (current_exact_when_representable (holding 0 522 30 100 0 0) bench
                  H1 H2 H3 H4)).
Defined.

(** C2, the claim as stated fails.  At 66 mV/A a full-scale sample r = 1023
    without offset has the exact quotient 37804, which the 16-bit signed
    return type cannot hold: current() returns -27732. *)
Lemma current_exact_fails_at_66mV :
  0 <= 1023 <= 1023 /\
  current_quotient 1023 0 66 = 37804 /\
  option_map fst (current (mkMachine (holding 0 1023 30 66 0 0) bench)) = Some (-27732) /\
  option_map fst (current (mkMachine (holding 0 1023 30 66 0 0) bench))
    <> Some (current_quotient 1023 0 66).
Proof.
  split; [lia|]. split; [reflexivity|]. split; [reflexivity|].
  vm_compute. discriminate.
Qed.

(** ** voltage *)

Example voltage_full_scale_48V (w : Platform) :
  voltage_quotient 1023 48 = 47953 /\
  option_map fst (voltage (mkMachine (holding 1023 512 48 100 0 0) w)) = Some (-17583).
Proof. split; reflexivity. Qed.

(** The returned value is the exact quotient narrowed to 16 signed bits. *)
Lemma voltage_narrowed (s : PSensor.t) :
  0 <= PSensor._VpinVal s <= 1023 -> 0 <= PSensor._maxV s <= 255 ->
  voltage_value s = CInt.int16 (voltage_quotient (PSensor._VpinVal s) (PSensor._maxV s)).
Proof.
  intros Hr Hm. unfold voltage_value.
  rewrite voltage_product by assumption. reflexivity.
Qed.

(** C3, as amended.  For a raw voltage sample r in 0..1023 and a maximum
    divider voltage maxV in 0..255, whenever the quotient r * maxV * 125 / 128
    is below 32768, voltage() returns exactly that quotient in millivolts; and
    voltage() returns 0 mV when the stored raw sample is 0. *)
Theorem voltage_exact_when_representable (s : PSensor.t) (w : Platform) :
  0 <= PSensor._VpinVal s <= 1023 ->
  0 <= PSensor._maxV s <= 255 ->
  voltage_quotient (PSensor._VpinVal s) (PSensor._maxV s) < 32768 ->
  option_map fst (voltage (mkMachine s w)) =
    Some (voltage_quotient (PSensor._VpinVal s) (PSensor._maxV s))
  /\ (PSensor._VpinVal s = 0 -> option_map fst (voltage (mkMachine s w)) = Some 0).
Proof.
  intros Hr Hm Hq. rewrite voltage_run. cbn [option_map fst]. split.
  - rewrite voltage_narrowed by assumption.
    pose proof (voltage_quotient_bounds _ _ Hr Hm).
    rewrite int16_id by lia. reflexivity.
  - intros E. rewrite voltage_of_zero by exact E. reflexivity.
Qed.

Lemma voltage_exact_when_representable_witness :
  0 <= 700 <= 1023 /\ 0 <= 30 <= 255 /\ voltage_quotient 700 30 < 32768 /\
  option_map fst (voltage (mkMachine (holding 700 512 30 100 0 0) bench)) = Some 20507.
Proof.
  assert (H1 : 0 <= 700 <= 1023) by lia.
  assert (H2 : 0 <= 30 <= 255) by lia.
  assert (H3 : voltage_quotient 700 30 < 32768) by reflexivity.
  refine (conj H1 (conj H2 (conj H3 _))).
  exact (proj1 (voltage_exact_when_representable (holding 700 512 30 100 0 0) bench
                  H1 H2 H3)).
Defined.

(** C3, the claim as stated fails.  With maxV = 48 and the full-scale sample
    r = 1023 the quotient is 47953 mV, and voltage() returns -17583. *)
Lemma voltage_exact_fails_at_48V :
  0 <= 1023 <= 1023 /\
  voltage_quotient 1023 48 = 47953 /\
  option_map fst (voltage (mkMachine (holding 1023 512 48 100 0 0) bench)) = Some (-17583) /\
  option_map fst (voltage (mkMachine (holding 1023 512 48 100 0 0) bench))
    <> Some (voltage_quotient 1023 48).
Proof.
  split; [lia|]. split; [reflexivity|]. split; [reflexivity|].
  vm_compute. discriminate.
Qed.

(** C5.  The result of voltage() does not depend on the voltage calibration
    offset: two sensors that differ in [_calV] only return the same value. *)
Theorem voltage_ignores_calV (s : PSensor.t) (w : Platform) (calV : Z) :
  option_map fst (voltage (mkMachine (PSensor.set_calV calV s) w)) =
  option_map fst (voltage (mkMachine s w)).
Proof. rewrite !voltage_run. reflexivity. Qed.

(** C9, as amended.  voltage() does acquire a fresh supply-voltage reading
    from the platform, one readVcc per call, and leaves the sensor unchanged;
    the value it returns is determined by the stored raw voltage sample and
    the configured maximum voltage alone: it depends neither on the supply
    voltage captured during the last run nor on the reading just acquired. *)
Theorem voltage_reads_supply_and_ignores_it (s : PSensor.t) (w : Platform) :
  exists v : Z,
    voltage (mkMachine s w) = Some (v, mkMachine s (tick_vcc w)) /\
    vcc_reads (tick_vcc w) = S (vcc_reads w) /\
    adc_reads (tick_vcc w) = adc_reads w /\
    forall (s' : PSensor.t) (w' : Platform),
      PSensor._VpinVal s' = PSensor._VpinVal s ->
      PSensor._maxV s' = PSensor._maxV s ->
      option_map fst (voltage (mkMachine s' w')) = Some v.
Proof.
  exists (voltage_value s). rewrite voltage_run.
  repeat split.
  intros s' w' Er Em. rewrite voltage_run. cbn [option_map fst].
  unfold voltage_value. rewrite Er, Em. reflexivity.
Qed.

Lemma voltage_reads_supply_and_ignores_it_witness :
  PSensor._VpinVal (PSensor.set_Vcc 3300 (holding 700 512 30 100 0 0)) = 700 /\
  PSensor._maxV (PSensor.set_Vcc 3300 (holding 700 512 30 100 0 0)) = 30 /\
  option_map fst
    (voltage (mkMachine (PSensor.set_Vcc 3300 (holding 700 512 30 100 0 0)) (tick_vcc bench)))
  = Some 20507.
Proof.
  refine (conj eq_refl (conj eq_refl _)).
  destruct (voltage_reads_supply_and_ignores_it (holding 700 512 30 100 0 0) bench)
    as (v & Ev & _ & _ & Hv).
  rewrite (Hv (PSensor.set_Vcc 3300 (holding 700 512 30 100 0 0)) (tick_vcc bench)
              eq_refl eq_refl).
  rewrite voltage_run in Ev. injection Ev as Ev. rewrite <- Ev. reflexivity.
Defined.

(** C9, the claim as stated fails.  On the sample sensor a call of voltage()
    raises the platform's count of supply-voltage reads from 0 to 1, and the
    value returned is the same for a captured supply voltage of 5000 mV and
    of 3300 mV. *)
Lemma voltage_reacquires_supply :
  vcc_reads (hw fresh) = 0%nat /\
  option_map (fun r => vcc_reads (hw (snd r))) (voltage fresh) = Some 1%nat /\
  option_map (fun r => vcc_reads (hw (snd r))) (voltage fresh)
    <> Some (vcc_reads (hw fresh)) /\
  option_map fst (voltage (mkMachine (PSensor.set_Vcc 5000 (holding 700 512 30 100 0 0)) bench))
  = option_map fst (voltage (mkMachine (PSensor.set_Vcc 3300 (holding 700 512 30 100 0 0)) bench)).
Proof.
  split; [reflexivity|]. split; [reflexivity|]. split; [|reflexivity].
  vm_compute. discriminate.
Qed.

(** C10.  voltage() forms the quotient raw * maxV * 125 / 128 in 32-bit
    unsigned arithmetic and returns it as a 16-bit signed integer: for a raw
    sample in 0..1023 and maxV in 0..255 the returned value is the quotient
    reduced modulo 2^16 and read as signed, and it equals the quotient if and
    only if the quotient is below 32768. *)
Theorem voltage_return_narrowing (s : PSensor.t) (w : Platform) :
  0 <= PSensor._VpinVal s <= 1023 ->
  0 <= PSensor._maxV s <= 255 ->
  exists v : Z,
    option_map fst (voltage (mkMachine s w)) = Some v /\
    v = (voltage_quotient (PSensor._VpinVal s) (PSensor._maxV s) + 32768) mod 65536 - 32768 /\
    -32768 <= v < 32768 /\
    (v = voltage_quotient (PSensor._VpinVal s) (PSensor._maxV s) <->
     voltage_quotient (PSensor._VpinVal s) (PSensor._maxV s) < 32768).
Proof.
  intros Hr Hm. exists (voltage_value s).
  rewrite voltage_run. cbn [option_map fst].
  rewrite voltage_narrowed by assumption.
  pose proof (voltage_quotient_bounds _ _ Hr Hm) as Hq.
  pose proof (int16_range (voltage_quotient (PSensor._VpinVal s) (PSensor._maxV s))) as Hv.
  split; [reflexivity|]. split; [reflexivity|]. split; [exact Hv|].
  split.
  - intros E. lia.
  - intros Hlt. apply int16_id. lia.
Qed.

Lemma voltage_return_narrowing_witness :
  0 <= 1023 <= 1023 /\ 0 <= 48 <= 255 /\
  exists v : Z,
    option_map fst (voltage (mkMachine (holding 1023 512 48 100 0 0) bench)) = Some v /\
    v = (47953 + 32768) mod 65536 - 32768 /\
    -32768 <= v < 32768 /\
    (v = 47953 <-> 47953 < 32768).
Proof.
  assert (H1 : 0 <= 1023 <= 1023) by lia.
  assert (H2 : 0 <= 48 <= 255) by lia.
  refine (conj H1 (conj H2 _)).
  exact (voltage_return_narrowing (holding 1023 512 48 100 0 0) bench H1 H2).
Defined.

(** ** Rescheduling *)

(** [run] moves the due time by the read interval, whatever its argument. *)
Lemma run_nextDue (now : Z) (s : PSensor.t) (w : Platform) :
  option_map (fun r => nextDue (snd r)) (run now (mkMachine s w)) =
    Some (CInt.uint32 (nextDue (mkMachine s w) + PSensor._readRate s)).
Proof. reflexivity. Qed.

Lemma uint32_add_idemp (a b : Z) : CInt.uint32 (CInt.uint32 a + b) = CInt.uint32 (a + b).
Proof.
  unfold CInt.uint32, CInt.to_uint. apply Zplus_mod_idemp_l.
Qed.

(** After any number of runs the due time has moved by that many intervals. *)
Lemma runs_nextDue (nows : list Z) (s : PSensor.t) (w : Platform) :
  exists m' : Machine,
    runs nows (mkMachine s w) = Some (tt, m') /\
    PSensor._readRate (self m') = PSensor._readRate s /\
    CInt.uint32 (nextDue m') =
      CInt.uint32 (nextDue (mkMachine s w) + Z.of_nat (length nows) * PSensor._readRate s).
Proof.
  revert s w. induction nows as [|now rest IH]; intros s w.
  - exists (mkMachine s w). split; [reflexivity|]. split; [reflexivity|].
    cbn [length Z.of_nat]. f_equal. lia.
  - cbn [runs]. unfold bind. rewrite run_run.
    destruct (IH (sampled now s w) (tick_adc (tick_adc (tick_vcc w))))
      as (m' & Eruns & Erate & Edue).
    exists m'. split; [exact Eruns|]. split; [exact Erate|].
    rewrite Edue. unfold nextDue. cbn [self sampled PSensor.task PSensor._readRate
      TimedTask.incRunTime TimedTask.nextRunTime].
    rewrite uint32_add_idemp. f_equal.
    change (length (now :: rest)) with (S (length rest)). lia.
Qed.

Lemma runs_nextDue_in_range (nows : list Z) (s : PSensor.t) (w : Platform) (m' : Machine) :
  0 <= nextDue (mkMachine s w) < 4294967296 ->
  runs nows (mkMachine s w) = Some (tt, m') ->
  0 <= nextDue m' < 4294967296.
Proof.
  revert s w. induction nows as [|now rest IH]; intros s w Hd.
  - cbn [runs]. unfold ret. intros E. injection E as E. subst m'. exact Hd.
  - cbn [runs]. unfold bind. rewrite run_run.
    apply IH. unfold nextDue. cbn [self sampled PSensor.task TimedTask.incRunTime
      TimedTask.nextRunTime].
    unfold CInt.uint32, CInt.to_uint. change (CInt.modulus 32) with 4294967296.
    apply Z.mod_pos_bound. lia.
Qed.

(** C4, as amended.  For a task with read interval I that is due at D, the
    reschedule performed during a run sets the next due time to exactly D + I
    on the wrapping 32-bit millisecond counter, whatever the now argument of
    the run and however late the run was entered; it is T + I, with T the now
    argument, when the run is entered on time (T = D).  So no drift
    accumulates: after any number of runs, entered at any times, the due time
    has moved by that many intervals, and a run due at T0 + I and entered late
    at T0 + I + 5 still leaves the next due time at T0 + 2I. *)
Theorem reschedule_from_due_time (s : PSensor.t) (w : Platform) (now : Z) (nows : list Z) :
  0 <= nextDue (mkMachine s w) < 4294967296 ->
  (exists m' : Machine,
     run now (mkMachine s w) = Some (tt, m') /\
     nextDue m' = (nextDue (mkMachine s w) + PSensor._readRate s) mod 4294967296 /\
     (now = nextDue (mkMachine s w) -> 0 <= PSensor._readRate s ->
      now + PSensor._readRate s < 4294967296 ->
      nextDue m' = now + PSensor._readRate s))
  /\
  (exists m' : Machine,
     runs nows (mkMachine s w) = Some (tt, m') /\
     nextDue m' =
       (nextDue (mkMachine s w) + Z.of_nat (length nows) * PSensor._readRate s)
         mod 4294967296).
Proof.
  intros Hd. split.
  - rewrite run_run. eexists. split; [reflexivity|]. split; [reflexivity|].
    intros Enow Hi Hsum. unfold nextDue in *.
    cbn [self sampled PSensor.task TimedTask.incRunTime TimedTask.nextRunTime] in *.
    subst now. apply uint32_id. lia.
  - destruct (runs_nextDue nows s w) as (m' & Eruns & _ & Edue).
    exists m'. split; [exact Eruns|].
    pose proof (runs_nextDue_in_range nows s w m' Hd Eruns) as Hr.
    rewrite (uint32_id (nextDue m') Hr) in Edue. exact Edue.
Qed.

Lemma reschedule_from_due_time_witness :
  0 <= 1000 < 4294967296 /\
  (exists m' : Machine,
     run 1000 fresh = Some (tt, m') /\ nextDue m' = 1500) /\
  (exists m' : Machine,
     runs (1000 :: 1505 :: nil) fresh = Some (tt, m') /\ nextDue m' = 2000).
Proof.
  assert (H1 : 0 <= 1000 < 4294967296) by lia.
  refine (conj H1 _).
  destruct (reschedule_from_due_time (self fresh) (hw fresh) 1000 (1000 :: 1505 :: nil) H1)
    as [(m1 & Erun & Edue & _) (m2 & Eruns & Edue2)].
  split.
  - exists m1. split; [exact Erun | exact Edue].
  - exists m2. split; [exact Eruns | exact Edue2].
Defined.

(** C4, the claim as stated fails.  The sample sensor is constructed at
    T0 = 1000 with I = 500 and runs at T0, which leaves it due at T0 + I; the
    next run is entered late, with now = T = T0 + I + 5 = 1505, and leaves the
    next due time at T0 + 2I = 2000, not at T + I = 2005. *)
Lemma late_run_is_not_due_from_now :
  clock (hw fresh) = 1000 /\ PSensor._readRate (self fresh) = 500 /\
  option_map (fun r => nextDue (snd r)) ((run 1000 ;; run (1000 + 500 + 5)) fresh)
    = Some (1000 + 2 * 500) /\
  option_map (fun r => nextDue (snd r)) ((run 1000 ;; run (1000 + 500 + 5)) fresh)
    <> Some ((1000 + 500 + 5) + 500).
Proof.
  split; [reflexivity|]. split; [reflexivity|]. split; [reflexivity|].
  vm_compute. discriminate.
Qed.

(** ** run followed by lastReading *)



(** ** lastReading leaves the sensor alone *)

(** C7.  lastReading does not mutate the sensor (timestamp, raw samples,
    supply-voltage value, configuration, calibration, schedule), and it is
    idempotent: when a call returns, the sensor is the one before the call,
    and a second call, with no run in between and whatever the output record
    held, returns too, with the same status and the same record, and again
    leaves the sensor unchanged. *)
Theorem lastReading_idempotent (data : sensor_data_struct.t) (m m1 : Machine)
    (st : Z) (d : sensor_data_struct.t) :
  lastReading data m = Some ((st, d), m1) ->
  self m1 = self m /\
  forall data' : sensor_data_struct.t,
    exists m2 : Machine,
      lastReading data' m1 = Some ((st, d), m2) /\ self m2 = self m.
Proof.
  destruct m as [s w]. rewrite lastReading_run.
  rewrite (current_frame s (tick_vcc w) w).
  destruct (current (mkMachine s (tick_vcc w))) as [[i m0]|] eqn:Ecur;
    cbn [option_map fst]; [|discriminate].
  intros R. injection R as Est Ed Em. subst st d m1.
  split; [reflexivity|].
  intros data'. rewrite lastReading_run, Ecur. cbn [option_map fst].
  eexists. split; reflexivity.
Qed.

Lemma lastReading_idempotent_witness :
  exists (d : sensor_data_struct.t) (m1 : Machine),
    lastReading blank fresh = Some ((STATUS_OK, d), m1) /\
    self m1 = self fresh /\
    exists m2 : Machine,
      lastReading d m1 = Some ((STATUS_OK, d), m2) /\ self m2 = self fresh.
Proof.
  assert (E : lastReading blank fresh
              = Some ((STATUS_OK, filled (self fresh) (-25000)),
                      mkMachine (self fresh) (tick_vcc (hw fresh)))) by reflexivity.
  exists (filled (self fresh) (-25000)), (mkMachine (self fresh) (tick_vcc (hw fresh))).
  split; [exact E|].
  destruct (lastReading_idempotent blank fresh _ STATUS_OK _ E) as [Hself Hagain].
  split; [exact Hself|].
  exact (Hagain (filled (self fresh) (-25000))).
Defined.

(** ** current as a function of the compensated sample *)

(** C8, as amended.  For a fixed sensitivity in 1..255 mV/A, raw samples in
    0..1023 and calibration offsets of 16 signed bits: current() is a function
    of the sum r + c, and it is monotonically non-decreasing in that sum over
    the inputs whose exact quotient is representable in the 16-bit signed
    return type. *)
Theorem current_monotone_when_representable (s1 s2 : PSensor.t) (w1 w2 : Platform) :
  PSensor._mV_A s1 = PSensor._mV_A s2 ->
  1 <= PSensor._mV_A s1 <= 255 ->
  0 <= PSensor._IpinVal s1 <= 1023 -> 0 <= PSensor._IpinVal s2 <= 1023 ->
  -32768 <= PSensor._calI s1 <= 32767 -> -32768 <= PSensor._calI s2 <= 32767 ->
  (PSensor._IpinVal s1 + PSensor._calI s1 = PSensor._IpinVal s2 + PSensor._calI s2 ->
   option_map fst (current (mkMachine s1 w1)) = option_map fst (current (mkMachine s2 w2)))
  /\
  (PSensor._IpinVal s1 + PSensor._calI s1 <= PSensor._IpinVal s2 + PSensor._calI s2 ->
   -32768 <= current_quotient (PSensor._IpinVal s1) (PSensor._calI s1) (PSensor._mV_A s1) <= 32767 ->
   -32768 <= current_quotient (PSensor._IpinVal s2) (PSensor._calI s2) (PSensor._mV_A s2) <= 32767 ->
   exists v1 v2 : Z,
     option_map fst (current (mkMachine s1 w1)) = Some v1 /\
     option_map fst (current (mkMachine s2 w2)) = Some v2 /\
     v1 <= v2).
Proof.
  intros Es Hs Hr1 Hr2 Hc1 Hc2. split.
  - intros Esum.
    unfold current, bind, this, sdiv, signed, ret, undefined. cbn [self].
    rewrite (int32_id (PSensor._IpinVal s1)), (int32_id (PSensor._IpinVal s2)) by lia.
    rewrite <- Es.
    assert (F1 : CInt.fits_int 32 (PSensor._IpinVal s1 - 512) = true)
      by (apply fits_int_32; lia).
    assert (F2 : CInt.fits_int 32 (PSensor._IpinVal s2 - 512) = true)
      by (apply fits_int_32; lia).
    rewrite F1, F2. cbv beta iota.
    replace (PSensor._IpinVal s2 - 512 + PSensor._calI s2)
      with (PSensor._IpinVal s1 - 512 + PSensor._calI s1) by lia.
    repeat match goal with
           | |- context [if ?b then _ else _] => destruct b; cbv beta iota
           end; reflexivity.
  - intros Hle Hq1 Hq2.
    rewrite (current_representable s1 w1) by assumption.
    rewrite (current_representable s2 w2) by (try assumption; lia).
    cbn [option_map fst]. eexists. eexists.
    split; [reflexivity|]. split; [reflexivity|].
    unfold current_quotient. rewrite <- Es.
    apply Z.quot_le_mono; lia.
Qed.

Lemma current_monotone_when_representable_witness :
  100 = 100 /\ 1 <= 100 <= 255 /\ 0 <= 512 <= 1023 /\ 0 <= 522 <= 1023 /\
  -32768 <= 3 <= 32767 /\ -32768 <= 0 <= 32767 /\
  512 + 3 <= 522 + 0 /\
  -32768 <= current_quotient 512 3 100 <= 32767 /\
  -32768 <= current_quotient 522 0 100 <= 32767 /\
  exists v1 v2 : Z,
    option_map fst (current (mkMachine (holding 0 512 30 100 3 0) bench)) = Some v1 /\
    option_map fst (current (mkMachine (holding 0 522 30 100 0 0) bench)) = Some v2 /\
    v1 <= v2.
Proof.
  assert (H1 : 1 <= 100 <= 255) by lia.
  assert (H2 : 0 <= 512 <= 1023) by lia.
  assert (H3 : 0 <= 522 <= 1023) by lia.
  assert (H4 : -32768 <= 3 <= 32767) by lia.
  assert (H5 : -32768 <= 0 <= 32767) by lia.
  assert (H6 : 512 + 3 <= 522 + 0) by lia.
  assert (H7 : -32768 <= current_quotient 512 3 100 <= 32767)
    by (vm_compute; split; discriminate).
  assert (H8 : -32768 <= current_quotient 522 0 100 <= 32767)
    by (vm_compute; split; discriminate).
  refine (conj eq_refl (conj H1 (conj H2 (conj H3 (conj H4 (conj H5
            (conj H6 (conj H7 (conj H8 _))))))))).
  exact (proj2 (current_monotone_when_representable
                  (holding 0 512 30 100 3 0) (holding 0 522 30 100 0 0) bench bench
                  eq_refl H1 H2 H3 H4 H5) H6 H7 H8).
Defined.

(** C8, the claim as stated fails.  At 66 mV/A without offset the sums 900 and
    1023 are in order, yet current() returns 28705 mA for the first and
    -27732 mA for the second. *)
Lemma current_not_monotone_at_66mV :
  900 + 0 <= 1023 + 0 /\
  option_map fst (current (mkMachine (holding 0 900 30 66 0 0) bench)) = Some 28705 /\
  option_map fst (current (mkMachine (holding 0 1023 30 66 0 0) bench)) = Some (-27732) /\
  ~ (28705 <= -27732).
Proof.
  split; [lia|]. split; [reflexivity|]. split; [reflexivity|]. lia.
Qed.

(** ** Construction and the life of a sensor *)

Section Lifetime.

Lemma uint_range (bits z : Z) : 0 < bits -> 0 <= CInt.to_uint bits z < 2 ^ bits.
Proof.
  intros Hb. unfold CInt.to_uint, CInt.modulus.
  apply Z.mod_pos_bound. apply Z.pow_pos_nonneg; lia.
Qed.

Lemma construct_configured (pinV pinI maxV mV_A r1 r2 readRate id calI calV garbage : Z)
    (w : Platform) :
  configured (self (construct pinV pinI maxV mV_A r1 r2 readRate id calI calV garbage w)).
Proof.
  unfold configured, construct. cbn [self PSensor._pinV PSensor._pinI PSensor._maxV
    PSensor._mV_A PSensor._r1 PSensor._r2 PSensor._readRate PSensor._calI PSensor._calV].
  pose proof (uint_range 8 pinV ltac:(lia)). pose proof (uint_range 8 pinI ltac:(lia)).
  pose proof (uint_range 8 maxV ltac:(lia)). pose proof (uint_range 8 mV_A ltac:(lia)).
  pose proof (uint_range 16 r1 ltac:(lia)). pose proof (uint_range 16 r2 ltac:(lia)).
  pose proof (uint_range 32 readRate ltac:(lia)).
  pose proof (int16_range calI). pose proof (int16_range calV).
  unfold CInt.uint8, CInt.uint16, CInt.uint32.
  change (2 ^ 8) with 256 in *. change (2 ^ 16) with 65536 in *.
  change (2 ^ 32) with 4294967296 in *.
  repeat split; lia.
Qed.

Lemma same_configuration_refl (s : PSensor.t) : same_configuration s s.
Proof. unfold same_configuration. repeat split. Qed.

Lemma same_configuration_trans (s1 s2 s3 : PSensor.t) :
  same_configuration s1 s2 -> same_configuration s2 s3 -> same_configuration s1 s3.
Proof.
  unfold same_configuration.
  intros (A1 & A2 & A3 & A4 & A5 & A6 & A7 & A8 & A9 & A10)
         (B1 & B2 & B3 & B4 & B5 & B6 & B7 & B8 & B9 & B10).
  repeat split; congruence.
Qed.

Lemma same_configuration_configured (s s' : PSensor.t) :
  same_configuration s s' -> configured s -> configured s'.
Proof.
  unfold same_configuration, configured.
  intros (A1 & A2 & A3 & A4 & A5 & A6 & A7 & A8 & A9 & A10) H.
  rewrite A1, A2, A3, A4, A5, A6, A7, A9, A10. exact H.
Qed.

Lemma sampled_same_configuration (now : Z) (s : PSensor.t) (w : Platform) :
  same_configuration s (sampled now s w).
Proof. unfold same_configuration. repeat split. Qed.

Lemma lastReading_machine (data : sensor_data_struct.t) (s : PSensor.t) (w : Platform)
    (r : Z * sensor_data_struct.t) (m' : Machine) :
  lastReading data (mkMachine s w) = Some (r, m') -> m' = mkMachine s (tick_vcc w).
Proof.
  rewrite lastReading_run.
  destruct (current (mkMachine s w)) as [[i m0]|]; cbn [option_map]; [|discriminate].
  intros E. injection E as _ E. symmetry. exact E.
Qed.

Lemma evolves_same_configuration (m0 m : Machine) :
  evolves m0 m -> same_configuration (self m0) (self m).
Proof.
  induction 1 as [|m m' now _ IH Hrun|m m' data r _ IH Hread].
  - apply same_configuration_refl.
  - destruct m as [s w]. rewrite run_run in Hrun. injection Hrun as Hm. subst m'.
    apply (same_configuration_trans _ _ _ IH). cbn [self].
    apply sampled_same_configuration.
  - destruct m as [s w]. apply lastReading_machine in Hread. subst m'. exact IH.
Qed.

Lemma evolves_invariant (m0 m : Machine) :
  evolves m0 m -> wellformed (self m0) -> adc_contract (hw m0) ->
  wellformed (self m) /\ adc_contract (hw m).
Proof.
  intros Hev Hwf Hadc.
  induction Hev as [|m m' now _ IH Hrun|m m' data r _ IH Hread].
  - split; assumption.
  - destruct IH as [[Hc Hs] Ha]. destruct m as [s w].
    rewrite run_run in Hrun. injection Hrun as Hm. subst m'. cbn [self hw] in *.
    split; [split|].
    + apply (same_configuration_configured s); [apply sampled_same_configuration | exact Hc].
    + unfold samples_in_range, sampled. cbn [PSensor._VpinVal PSensor._IpinVal].
      split; apply Ha.
    + intros k pin. apply (Ha k pin).
  - destruct IH as [Hw Ha]. destruct m as [s w].
    apply lastReading_machine in Hread. subst m'. cbn [self hw] in *.
    split; [exact Hw|]. intros k pin. apply (Ha k pin).
Qed.

End Lifetime.

(** X2.  run always returns, for every sensor, platform and time; it leaves
    the configuration and the calibration as they were, and it makes exactly
    one supply-voltage read and two channel reads. *)
Theorem run_keeps_configuration (now : Z) (s : PSensor.t) (w : Platform) :
  exists m' : Machine,
    run now (mkMachine s w) = Some (tt, m') /\
    same_configuration s (self m') /\
    vcc_reads (hw m') = S (vcc_reads w) /\
    adc_reads (hw m') = S (S (adc_reads w)) /\
    vcc_supply (hw m') = vcc_supply w /\
    adc_input (hw m') = adc_input w.
Proof.
  rewrite run_run. eexists. split; [reflexivity|].
  split; [apply sampled_same_configuration|]. repeat split.
Qed.

(** X3.  The configuration and the calibration are immutable after
    construction: whatever sequence of run and lastReading calls a sensor goes
    through, its ten configured members keep their values. *)
Theorem configuration_is_immutable (m0 m : Machine) :
  evolves m0 m -> same_configuration (self m0) (self m).
Proof. apply evolves_same_configuration. Qed.

Lemma fresh_evolves_to_first_read : evolves fresh after_first_read.
Proof.
  apply (evolves_lastReading fresh after_first_run after_first_read blank
           (STATUS_OK, filled (self after_first_run) 488)).
  - apply (evolves_run fresh fresh after_first_run 1000).
    + apply evolves_start.
    + reflexivity.
  - reflexivity.
Defined.

Lemma configuration_is_immutable_witness :
  evolves fresh after_first_read /\
  same_configuration (self fresh) (self after_first_read).
Proof.
  refine (conj fresh_evolves_to_first_read _).
  exact (configuration_is_immutable fresh after_first_read fresh_evolves_to_first_read).
Defined.

(** X4.  Well-formedness is an invariant: a well-formed sensor on a platform
    whose analogRead answers within 0..1023 stays well formed, on such a
    platform, through every sequence of run and lastReading calls; in
    particular both stored samples are always within 0..1023. *)
Theorem wellformed_is_invariant (m0 m : Machine) :
  evolves m0 m -> wellformed (self m0) -> adc_contract (hw m0) ->
  wellformed (self m) /\ adc_contract (hw m).
Proof. apply evolves_invariant. Qed.

Lemma bench_adc_contract : adc_contract bench.
Proof.
  intros k pin. cbn. destruct (pin =? 0); lia.
Defined.

Lemma fresh_wellformed : wellformed (self fresh).
Proof.
  split.
  - apply construct_configured.
  - unfold samples_in_range. cbn. lia.
Defined.

Lemma wellformed_is_invariant_witness :
  evolves fresh after_first_read /\ wellformed (self fresh) /\ adc_contract (hw fresh) /\
  wellformed (self after_first_read) /\ adc_contract (hw after_first_read).
Proof.
  refine (conj fresh_evolves_to_first_read (conj fresh_wellformed (conj bench_adc_contract _))).
  exact (wellformed_is_invariant fresh after_first_read fresh_evolves_to_first_read
           fresh_wellformed bench_adc_contract).
Defined.

(** ** Where the conversions are defined *)

Section Definedness.

(** A zero sensitivity makes [current] divide by zero, whatever else the
    sensor holds. *)
Lemma current_zero_sensitivity (s : PSensor.t) (w : Platform) :
  PSensor._mV_A s = 0 -> current (mkMachine s w) = None.
Proof.
  intros E.
  unfold current, bind, this, sdiv, signed, ret, undefined. cbn [self].
  rewrite E. change (128 * 0) with 0.
  change (CInt.fits_int INT_BITS 0) with true. cbv beta iota.
  change (CInt.int32 0 =? 0) with true.
  repeat match goal with
         | |- context [if ?b then _ else _] => destruct b; cbv beta iota
         end; reflexivity.
Qed.

(** A product that leaves the 32-bit signed range leaves [current] without a
    defined result. *)
Lemma current_overflow (s : PSensor.t) (w : Platform) :
  0 <= PSensor._IpinVal s <= 1023 ->
  ~ (-2147483648 <= (PSensor._IpinVal s - 512 + PSensor._calI s) * 625000 < 2147483648) ->
  current (mkMachine s w) = None.
Proof.
  intros Hr Hn.
  unfold current, bind, this. cbn [self].
  rewrite int32_id by lia.
  rewrite signed_32_defined by lia.
  unfold signed at 1.
  destruct (CInt.fits_int 32 (PSensor._IpinVal s - 512 + PSensor._calI s)); [|reflexivity].
  cbv beta iota. unfold ret at 1. cbv beta iota.
  unfold signed at 1.
  destruct (CInt.fits_int 32 ((PSensor._IpinVal s - 512 + PSensor._calI s) * 625000)) eqn:F;
    [|reflexivity].
  apply fits_int_32 in F. contradiction.
Qed.

Lemma lastReading_undefined (data : sensor_data_struct.t) (s : PSensor.t) (w : Platform) :
  current (mkMachine s w) = None -> lastReading data (mkMachine s w) = None.
Proof. intros E. rewrite lastReading_run, E. reflexivity. Qed.

End Definedness.

(** X5.  For a raw current sample in 0..1023, a 16-bit offset and an 8-bit
    sensitivity, current() has a defined result exactly when the sensitivity
    is not 0 and the product (r - 512 + c) * 625000 fits 32 signed bits;
    otherwise it divides by zero or overflows. *)
Theorem current_defined_iff (s : PSensor.t) (w : Platform) :
  0 <= PSensor._IpinVal s <= 1023 ->
  -32768 <= PSensor._calI s < 32768 ->
  0 <= PSensor._mV_A s < 256 ->
  (current (mkMachine s w) <> None <->
   PSensor._mV_A s <> 0 /\
   -2147483648 <= (PSensor._IpinVal s - 512 + PSensor._calI s) * 625000 < 2147483648).
Proof.
  intros Hr Hc Hs. split.
  - intros Hdef. split.
    + intros E. apply Hdef. apply current_zero_sensitivity. exact E.
    + destruct (Z_le_dec (-2147483648)
                  ((PSensor._IpinVal s - 512 + PSensor._calI s) * 625000)) as [L|L];
      destruct (Z_lt_dec ((PSensor._IpinVal s - 512 + PSensor._calI s) * 625000)
                  2147483648) as [U|U];
      try (split; assumption);
      exfalso; apply Hdef; apply current_overflow; try assumption; lia.
  - intros [Hnz Hn]. rewrite current_run by lia. discriminate.
Qed.

Lemma current_defined_iff_witness :
  0 <= 522 <= 1023 /\ -32768 <= 0 < 32768 /\ 0 <= 100 < 256 /\
  (current (mkMachine (holding 0 522 30 100 0 0) bench) <> None <->
   100 <> 0 /\ -2147483648 <= (522 - 512 + 0) * 625000 < 2147483648).
Proof.
  assert (H1 : 0 <= 522 <= 1023) by lia.
  assert (H2 : -32768 <= 0 < 32768) by lia.
  assert (H3 : 0 <= 100 < 256) by lia.
  refine (conj H1 (conj H2 (conj H3 _))).
  exact (current_defined_iff (holding 0 522 30 100 0 0) bench H1 H2 H3).
Defined.

(** X6.  A sensor constructed with a sensitivity that the 8-bit parameter
    turns into 0 (0, 256, ...) never delivers a reading: in every state it
    reaches, lastReading divides by zero in current(). *)
Theorem zero_sensitivity_never_reads
    (pinV pinI maxV mV_A r1 r2 readRate id calI calV garbage : Z) (w : Platform)
    (m : Machine) (data : sensor_data_struct.t) :
  mV_A mod 256 = 0 ->
  evolves (construct pinV pinI maxV mV_A r1 r2 readRate id calI calV garbage w) m ->
  lastReading data m = None.
Proof.
  intros Hz Hev.
  pose proof (evolves_same_configuration _ _ Hev) as (_ & _ & _ & Es & _).
  destruct m as [s w']. cbn [self] in Es.
  apply lastReading_undefined. apply current_zero_sensitivity.
  rewrite Es. exact Hz.
Qed.

Lemma zero_sensitivity_never_reads_witness :
  256 mod 256 = 0 /\ evolves insensitive insensitive /\
  lastReading blank insensitive = None.
Proof.
  refine (conj eq_refl (conj (evolves_start insensitive) _)).
  exact (zero_sensitivity_never_reads 0 1 30 256 27000 4700 500 65 0 0 0 bench
           insensitive blank eq_refl (evolves_start insensitive)).
Defined.

(** X7.  A well-formed sensor with a sensitivity of at least 1 mV/A and a
    current offset within -2923..2924, on a platform whose analogRead answers
    within 0..1023, delivers a reading in every state it reaches: lastReading
    returns, with status 0. *)
Theorem lastReading_always_defined (m0 m : Machine) (data : sensor_data_struct.t) :
  evolves m0 m -> wellformed (self m0) -> adc_contract (hw m0) ->
  1 <= PSensor._mV_A (self m0) ->
  -2923 <= PSensor._calI (self m0) <= 2924 ->
  exists (d : sensor_data_struct.t) (m' : Machine),
    lastReading data m = Some ((STATUS_OK, d), m').
Proof.
  intros Hev Hwf Hadc Hs Hc.
  destruct (evolves_invariant _ _ Hev Hwf Hadc) as [[Hcfg [_ Hi]] _].
  pose proof (evolves_same_configuration _ _ Hev) as (_ & _ & _ & Es & _ & _ & _ & _ & Ec & _).
  destruct Hcfg as (_ & _ & _ & Hsv & _).
  destruct m as [s w]. cbn [self] in *.
  rewrite lastReading_run, current_run by lia.
  cbn [option_map fst]. eexists. eexists. reflexivity.
Qed.

Lemma lastReading_always_defined_witness :
  evolves fresh after_first_read /\ wellformed (self fresh) /\ adc_contract (hw fresh) /\
  1 <= 100 /\ -2923 <= 0 <= 2924 /\
  exists (d : sensor_data_struct.t) (m' : Machine),
    lastReading blank after_first_read = Some ((STATUS_OK, d), m').
Proof.
  assert (H1 : 1 <= 100) by lia.
  assert (H2 : -2923 <= 0 <= 2924) by lia.
  refine (conj fresh_evolves_to_first_read
            (conj fresh_wellformed (conj bench_adc_contract (conj H1 (conj H2 _))))).
  exact (lastReading_always_defined fresh after_first_read blank
           fresh_evolves_to_first_read fresh_wellformed bench_adc_contract H1 H2).
Defined.

(** ** The shape of the current conversion *)

(** X8.  current() is symmetric about the zero point: two sensors of one
    sensitivity whose compensated samples r - 512 + c are opposite return
    opposite currents, as long as the quotient is representable -- the
    division truncates toward zero in both directions. *)
Theorem current_reverses_with_sample (s1 s2 : PSensor.t) (w1 w2 : Platform) :
  PSensor._mV_A s2 = PSensor._mV_A s1 ->
  1 <= PSensor._mV_A s1 <= 255 ->
  0 <= PSensor._IpinVal s1 <= 1023 -> 0 <= PSensor._IpinVal s2 <= 1023 ->
  -32768 <= PSensor._calI s1 <= 32767 -> -32768 <= PSensor._calI s2 <= 32767 ->
  PSensor._IpinVal s2 - 512 + PSensor._calI s2 = - (PSensor._IpinVal s1 - 512 + PSensor._calI s1) ->
  -32767 <= current_quotient (PSensor._IpinVal s1) (PSensor._calI s1) (PSensor._mV_A s1) <= 32767 ->
  exists v : Z,
    option_map fst (current (mkMachine s1 w1)) = Some v /\
    option_map fst (current (mkMachine s2 w2)) = Some (- v).
Proof.
  intros Es Hs Hr1 Hr2 Hc1 Hc2 Hopp Hq.
  assert (Eq : current_quotient (PSensor._IpinVal s2) (PSensor._calI s2) (PSensor._mV_A s2)
               = - current_quotient (PSensor._IpinVal s1) (PSensor._calI s1) (PSensor._mV_A s1)).
  { unfold current_quotient. rewrite Es, Hopp.
    rewrite Z.mul_opp_l. apply Z.quot_opp_l. lia. }
  exists (current_quotient (PSensor._IpinVal s1) (PSensor._calI s1) (PSensor._mV_A s1)).
  rewrite (current_representable s1 w1) by (try assumption; lia).
  rewrite (current_representable s2 w2) by (try assumption; lia).
  cbn [option_map fst]. rewrite Eq. split; reflexivity.
Qed.

Lemma current_reverses_with_sample_witness :
  100 = 100 /\ 1 <= 100 <= 255 /\ 0 <= 522 <= 1023 /\ 0 <= 502 <= 1023 /\
  -32768 <= 0 <= 32767 /\ -32768 <= 0 <= 32767 /\
  502 - 512 + 0 = - (522 - 512 + 0) /\
  -32767 <= current_quotient 522 0 100 <= 32767 /\
  exists v : Z,
    option_map fst (current (mkMachine (holding 0 522 30 100 0 0) bench)) = Some v /\
    option_map fst (current (mkMachine (holding 0 502 30 100 0 0) bench)) = Some (- v).
Proof.
  assert (H1 : 1 <= 100 <= 255) by lia.
  assert (H2 : 0 <= 522 <= 1023) by lia.
  assert (H3 : 0 <= 502 <= 1023) by lia.
  assert (H4 : -32768 <= 0 <= 32767) by lia.
  assert (H5 : 502 - 512 + 0 = - (522 - 512 + 0)) by reflexivity.
  assert (H6 : -32767 <= current_quotient 522 0 100 <= 32767)
    by (vm_compute; split; discriminate).
  refine (conj eq_refl (conj H1 (conj H2 (conj H3 (conj H4 (conj H4 (conj H5 (conj H6 _)))))))).
  exact (current_reverses_with_sample (holding 0 522 30 100 0 0) (holding 0 502 30 100 0 0)
           bench bench eq_refl H1 H2 H3 H4 H4 H5 H6).
Defined.

(** X9.  The zero point of current() is r + c = 512: for every sensitivity in
    1..255 a sensor whose raw sample and offset add up to 512 reads 0 mA. *)
Theorem current_zero_point (s : PSensor.t) (w : Platform) :
  0 <= PSensor._IpinVal s <= 1023 ->
  1 <= PSensor._mV_A s <= 255 ->
  PSensor._IpinVal s + PSensor._calI s = 512 ->
  option_map fst (current (mkMachine s w)) = Some 0.
Proof.
  intros Hr Hs Hsum.
  assert (Ez : PSensor._IpinVal s - 512 + PSensor._calI s = 0) by lia.
  rewrite current_run by lia.
  unfold current_quotient. rewrite Ez. reflexivity.
Qed.

Lemma current_zero_point_witness :
  0 <= 500 <= 1023 /\ 1 <= 66 <= 255 /\ 500 + 12 = 512 /\
  option_map fst (current (mkMachine (holding 0 500 30 66 12 0) bench)) = Some 0.
Proof.
  assert (H1 : 0 <= 500 <= 1023) by lia.
  assert (H2 : 1 <= 66 <= 255) by lia.
  refine (conj H1 (conj H2 (conj eq_refl _))).
  exact (current_zero_point (holding 0 500 30 66 12 0) bench H1 H2 eq_refl).
Defined.

(** X10.  With a sensitivity of 77 mV/A or more and no calibration offset,
    current() is exact over the whole range of the converter: for every raw
    sample in 0..1023 it returns (r - 512) * 625000 / (128 * sensitivity),
    which then lies within -32768..32767. *)
Theorem current_exact_from_77mV (s : PSensor.t) (w : Platform) :
  0 <= PSensor._IpinVal s <= 1023 ->
  PSensor._calI s = 0 ->
  77 <= PSensor._mV_A s <= 255 ->
  option_map fst (current (mkMachine s w)) =
    Some (current_quotient (PSensor._IpinVal s) 0 (PSensor._mV_A s)) /\
  -32768 <= current_quotient (PSensor._IpinVal s) 0 (PSensor._mV_A s) <= 32767.
Proof.
  intros Hr Hc Hs.
  assert (Hq : -32768 <= current_quotient (PSensor._IpinVal s) 0 (PSensor._mV_A s) <= 32767).
  { unfold current_quotient. split.
    - transitivity (Z.quot (-320000000) (128 * PSensor._mV_A s)).
      + change (-320000000) with (- (320000000)).
        rewrite Z.quot_opp_l by lia.
        enough (Z.quot 320000000 (128 * PSensor._mV_A s) <= 32768) by lia.
        apply Z.quot_le_upper_bound; lia.
      + apply Z.quot_le_mono; lia.
    - transitivity (Z.quot 319375000 (128 * PSensor._mV_A s)).
      + apply Z.quot_le_mono; lia.
      + apply Z.quot_le_upper_bound; lia. }
  split; [|exact Hq].
  rewrite <- Hc in Hq |- * at 1.
  rewrite (current_representable s w) by (try assumption; lia).
  reflexivity.
Qed.

Lemma current_exact_from_77mV_witness :
  0 <= 0 <= 1023 /\ 0 = 0 /\ 77 <= 77 <= 255 /\
  option_map fst (current (mkMachine (holding 0 0 30 77 0 0) bench)) = Some (-32467) /\
  -32768 <= -32467 <= 32767.
Proof.
  assert (H1 : 0 <= 0 <= 1023) by lia.
  assert (H2 : 77 <= 77 <= 255) by lia.
  refine (conj H1 (conj eq_refl (conj H2 _))).
  exact (current_exact_from_77mV (holding 0 0 30 77 0 0) bench H1 eq_refl H2).
Defined.

(** ** The shape of the voltage conversion *)

(** X11.  With a maximum divider voltage of at most 32 V, voltage() is exact
    over the whole range of the converter: for every raw sample in 0..1023 it
    returns r * maxV * 125 / 128, a value between 0 and 1000 * maxV
    millivolts. *)
Theorem voltage_exact_up_to_32V (s : PSensor.t) (w : Platform) :
  0 <= PSensor._VpinVal s <= 1023 ->
  0 <= PSensor._maxV s <= 32 ->
  option_map fst (voltage (mkMachine s w)) =
    Some (voltage_quotient (PSensor._VpinVal s) (PSensor._maxV s)) /\
  0 <= voltage_quotient (PSensor._VpinVal s) (PSensor._maxV s) <= 1000 * PSensor._maxV s.
Proof.
  intros Hr Hm.
  assert (Hq : 0 <= voltage_quotient (PSensor._VpinVal s) (PSensor._maxV s)
               <= 1000 * PSensor._maxV s).
  { unfold voltage_quotient. split.
    - apply Z.div_pos; nia.
    - apply Z.div_le_upper_bound; nia. }
  split; [|exact Hq].
  rewrite voltage_run. cbn [option_map fst].
  rewrite voltage_narrowed by lia.
  rewrite int16_id by lia. reflexivity.
Qed.

Lemma voltage_exact_up_to_32V_witness :
  0 <= 1023 <= 1023 /\ 0 <= 32 <= 32 /\
  option_map fst (voltage (mkMachine (holding 1023 512 32 100 0 0) bench)) = Some 31968 /\
  0 <= 31968 <= 1000 * 32.
Proof.
  assert (H1 : 0 <= 1023 <= 1023) by lia.
  assert (H2 : 0 <= 32 <= 32) by lia.
  refine (conj H1 (conj H2 _)).
  exact (voltage_exact_up_to_32V (holding 1023 512 32 100 0 0) bench H1 H2).
Defined.

(** X12.  voltage() is monotonically non-decreasing in the raw sample as long
    as the larger quotient is below 32768: for two sensors of one maximum
    voltage with r1 <= r2, the voltage returned for r1 is at most the one
    returned for r2. *)
Theorem voltage_monotone_when_representable (s1 s2 : PSensor.t) (w1 w2 : Platform) :
  PSensor._maxV s2 = PSensor._maxV s1 ->
  0 <= PSensor._maxV s1 <= 255 ->
  0 <= PSensor._VpinVal s1 -> PSensor._VpinVal s1 <= PSensor._VpinVal s2 ->
  PSensor._VpinVal s2 <= 1023 ->
  voltage_quotient (PSensor._VpinVal s2) (PSensor._maxV s2) < 32768 ->
  exists v1 v2 : Z,
    option_map fst (voltage (mkMachine s1 w1)) = Some v1 /\
    option_map fst (voltage (mkMachine s2 w2)) = Some v2 /\
    0 <= v1 <= v2.
Proof.
  intros Em Hm Hr1 Hle Hr2 Hq.
  assert (Hmono : voltage_quotient (PSensor._VpinVal s1) (PSensor._maxV s1)
                  <= voltage_quotient (PSensor._VpinVal s2) (PSensor._maxV s2)).
  { unfold voltage_quotient. rewrite Em. apply Z.div_le_mono; nia. }
  pose proof (voltage_quotient_bounds (PSensor._VpinVal s1) (PSensor._maxV s1)
                ltac:(lia) Hm) as Hb1.
  rewrite !voltage_run. cbn [option_map fst].
  rewrite (voltage_narrowed s1), (voltage_narrowed s2) by lia.
  rewrite !int16_id by lia.
  eexists. eexists. split; [reflexivity|]. split; [reflexivity|]. lia.
Qed.

Lemma voltage_monotone_when_representable_witness :
  30 = 30 /\ 0 <= 30 <= 255 /\ 0 <= 300 /\ 300 <= 700 /\ 700 <= 1023 /\
  voltage_quotient 700 30 < 32768 /\
  exists v1 v2 : Z,
    option_map fst (voltage (mkMachine (holding 300 512 30 100 0 0) bench)) = Some v1 /\
    option_map fst (voltage (mkMachine (holding 700 512 30 100 0 0) bench)) = Some v2 /\
    0 <= v1 <= v2.
Proof.
  assert (H1 : 0 <= 30 <= 255) by lia.
  assert (H2 : 0 <= 300) by lia.
  assert (H3 : 300 <= 700) by lia.
  assert (H4 : 700 <= 1023) by lia.
  assert (H5 : voltage_quotient 700 30 < 32768) by reflexivity.
  refine (conj eq_refl (conj H1 (conj H2 (conj H3 (conj H4 (conj H5 _)))))).
  exact (voltage_monotone_when_representable
           (holding 300 512 30 100 0 0) (holding 700 512 30 100 0 0) bench bench
           eq_refl H1 H2 H3 H4 H5).
Defined.

(** ** What lastReading delivers *)

(** X13.  The record lastReading fills agrees with the sensor: the identity,
    the timestamp and the raw samples are the stored members, the millivolts
    are what voltage() returns and the milliamps what current() returns on
    the same sensor; and the call takes no new channel sample -- it makes one
    supply-voltage read, inside voltage(), and no analogRead. *)
Theorem lastReading_agrees_with_accessors (data : sensor_data_struct.t) (m m' : Machine)
    (st : Z) (d : sensor_data_struct.t) :
  lastReading data m = Some ((st, d), m') ->
  sensor_data_struct.id d = PSensor._id (self m) /\
  sensor_data_struct.ts d = PSensor._ts (self m) /\
  sensor_data_struct.pinValV d = PSensor._VpinVal (self m) /\
  sensor_data_struct.pinValI d = PSensor._IpinVal (self m) /\
  option_map fst (voltage m) = Some (sensor_data_struct.mV d) /\
  option_map fst (current m) = Some (sensor_data_struct.mA d) /\
  adc_reads (hw m') = adc_reads (hw m) /\
  vcc_reads (hw m') = S (vcc_reads (hw m)).
Proof.
  destruct m as [s w]. rewrite lastReading_run.
  destruct (current (mkMachine s w)) as [[i m0]|]; cbn [option_map fst]; [|discriminate].
  intros E. injection E as _ Ed Em. subst d m'. repeat split.
Qed.

Lemma lastReading_agrees_with_accessors_witness :
  lastReading blank after_first_run
    = Some ((STATUS_OK, filled (self after_first_run) 488), after_first_read) /\
  sensor_data_struct.ts (filled (self after_first_run) 488) = 1000 /\
  option_map fst (voltage after_first_run) = Some 20507 /\
  option_map fst (current after_first_run) = Some 488 /\
  adc_reads (hw after_first_read) = 2%nat /\
  vcc_reads (hw after_first_read) = 2%nat.
Proof.
  assert (E : lastReading blank after_first_run
              = Some ((STATUS_OK, filled (self after_first_run) 488), after_first_read))
    by reflexivity.
  refine (conj E _).
  destruct (lastReading_agrees_with_accessors blank after_first_run after_first_read
              STATUS_OK (filled (self after_first_run) 488) E)
    as (_ & Ets & _ & _ & Ev & Ei & Ea & Ec).
  exact (conj Ets (conj Ev (conj Ei (conj Ea Ec)))).
Defined.

(** X14.  A sensor constructed with a sensitivity in 77..255 mV/A and no
    current offset, and then read before its first run, delivers status 0
    with timestamp 0, both raw samples 0, 0 mV, and a current of
    -512 * 625000 / (128 * sensitivity) mA, which is below -9800 mA: the
    record reports a reverse current of several amperes that was never
    measured. *)
Theorem reading_before_first_run
    (pinV pinI maxV mV_A r1 r2 readRate id calV garbage : Z) (w : Platform)
    (data : sensor_data_struct.t) :
  77 <= mV_A <= 255 ->
  exists (d : sensor_data_struct.t) (m' : Machine),
    lastReading data (construct pinV pinI maxV mV_A r1 r2 readRate id 0 calV garbage w)
      = Some ((STATUS_OK, d), m') /\
    sensor_data_struct.ts d = 0 /\
    sensor_data_struct.pinValV d = 0 /\ sensor_data_struct.pinValI d = 0 /\
    sensor_data_struct.mV d = 0 /\
    sensor_data_struct.mA d = current_quotient 0 0 mV_A /\
    sensor_data_struct.mA d < -9800.
Proof.
  intros Hs.
  assert (Es : CInt.uint8 mV_A = mV_A).
  { unfold CInt.uint8, CInt.to_uint. change (CInt.modulus 8) with 256.
    apply Z.mod_small. lia. }
  assert (Hq : -32768 <= current_quotient 0 0 mV_A < -9800).
  { unfold current_quotient. change ((0 - 512 + 0) * 625000) with (- (320000000)).
    rewrite Z.quot_opp_l by lia.
    pose proof (Z.quot_le_upper_bound 320000000 (128 * mV_A) 32768 ltac:(lia) ltac:(lia)).
    pose proof (Z.quot_le_lower_bound 320000000 (128 * mV_A) 9801 ltac:(lia) ltac:(lia)).
    lia. }
  unfold construct. rewrite lastReading_run.
  rewrite current_run;
    cbn [PSensor._IpinVal PSensor._calI PSensor._mV_A]; rewrite ?Es;
    change (CInt.int16 0) with 0; try lia.
  cbn [option_map fst]. rewrite (int16_id (current_quotient 0 0 mV_A)) by lia.
  eexists. eexists. split; [reflexivity|].
  cbn [filled sensor_data_struct.ts sensor_data_struct.pinValV sensor_data_struct.pinValI
       sensor_data_struct.mV sensor_data_struct.mA PSensor._ts PSensor._VpinVal
       PSensor._IpinVal].
  repeat split; try reflexivity. lia.
Qed.

Lemma reading_before_first_run_witness :
  77 <= 100 <= 255 /\
  exists (d : sensor_data_struct.t) (m' : Machine),
    lastReading blank fresh = Some ((STATUS_OK, d), m') /\
    sensor_data_struct.ts d = 0 /\
    sensor_data_struct.pinValV d = 0 /\ sensor_data_struct.pinValI d = 0 /\
    sensor_data_struct.mV d = 0 /\
    sensor_data_struct.mA d = -25000 /\
    sensor_data_struct.mA d < -9800.
Proof.
  assert (H1 : 77 <= 100 <= 255) by lia.
  refine (conj H1 _).
  exact (reading_before_first_run 0 1 30 100 27000 4700 500 65 0 0 bench blank H1).
Defined.

(** X15.  A run replaces the samples of the run before it: after two runs,
    lastReading delivers the timestamp of the second and the channel values
    the platform answered during the second, the third and the fourth
    analogRead counted from the first run. *)
Theorem second_run_overwrites_first (s : PSensor.t) (w : Platform) (now1 now2 : Z)
    (data : sensor_data_struct.t) (st : Z) (d : sensor_data_struct.t) (m' : Machine) :
  (run now1 ;; run now2 ;; lastReading data) (mkMachine s w) = Some ((st, d), m') ->
  sensor_data_struct.ts d = now2 /\
  sensor_data_struct.pinValV d = adc_input w (S (S (adc_reads w))) (PSensor._pinV s) /\
  sensor_data_struct.pinValI d = adc_input w (S (S (S (adc_reads w)))) (PSensor._pinI s) /\
  adc_reads (hw m') = S (S (S (S (adc_reads w)))) /\
  vcc_reads (hw m') = S (S (S (vcc_reads w))).
Proof.
  unfold bind at 1. rewrite run_run.
  unfold bind at 1. rewrite run_run.
  rewrite lastReading_run.
  destruct (current _) as [[i m0]|]; cbn [option_map fst]; [|discriminate].
  intros E. injection E as _ Ed Em. subst d m'. repeat split.
Qed.

Lemma second_run_overwrites_first_witness :
  exists (d : sensor_data_struct.t) (m' : Machine),
    (run 1000 ;; run 1500 ;; lastReading blank) fresh = Some ((STATUS_OK, d), m') /\
    sensor_data_struct.ts d = 1500 /\
    sensor_data_struct.pinValV d = 700 /\
    sensor_data_struct.pinValI d = 522.
Proof.
  assert (E : (run 1000 ;; run 1500 ;; lastReading blank) fresh
              = Some ((STATUS_OK, filled (sampled 1500 (self after_first_run)
                                            (hw after_first_run)) 488),
                      mkMachine (sampled 1500 (self after_first_run) (hw after_first_run))
                        (tick_vcc (tick_adc (tick_adc (tick_vcc (hw after_first_run)))))))
    by reflexivity.
  eexists. eexists. split; [exact E|].
  destruct (second_run_overwrites_first (self fresh) (hw fresh) 1000 1500 blank _ _ _ E)
    as (Ets & Ev & Ei & _).
  exact (conj Ets (conj Ev Ei)).
Defined.
